(** * adaptive_type: a shallow embedding of the adaptive integer headers

    The development models [include/adaptive_techniq.h],
    [include/adaptive_integer.h] and the four backends of
    [include/internal/] (scalar, MMX, SSE, AVX).

    - An integer type [TINT] is its [sizeof] and its signedness; a value of
      it is a [Z] in its range.
    - C++ integer arithmetic is written out: operands narrower than [int]
      are promoted to [int], unsigned arithmetic wraps, a signed result out
      of range is undefined behaviour, [/] by zero is undefined behaviour
      (a fatal trap on the targets of this code), and converting an integer
      to a narrower type keeps the low bits (two's complement).
    - A SIMD register is a [Z] holding its lanes packed, lane 0 in the low
      bits; the intrinsics are the lane-wise operations of the Intel
      intrinsics guide.
    - A computation either returns a value, runs into undefined behaviour,
      or is rejected by the compiler when the template is instantiated
      (C++ [if] type-checks every branch, also those whose [sizeof] test is
      false). *)

From Stdlib Require Import ZArith Lia List Bool String.
Import ListNotations.

Local Open Scope Z_scope.

(** ** Outcomes *)

Inductive res (A : Type) : Type :=
| Ok (v : A)
| Undef
| Rejected.
Arguments Ok {A} v.
Arguments Undef {A}.
Arguments Rejected {A}.

Definition res_bind {A B : Type} (r : res A) (k : A -> res B) : res B :=
  match r with
  | Ok v => k v
  | Undef => Undef
  | Rejected => Rejected
  end.

Notation "x <- r ;; k" := (res_bind r (fun x => k))
  (at level 61, r at next level, right associativity).

(** ** Integer types *)

Record ity := mk_ity { ity_size : Z; ity_signed : bool }.

Definition int8_t := mk_ity 1 true.
Definition int16_t := mk_ity 2 true.
Definition int32_t := mk_ity 4 true.
Definition int64_t := mk_ity 8 true.
Definition uint8_t := mk_ity 1 false.
Definition uint16_t := mk_ity 2 false.
Definition uint32_t := mk_ity 4 false.
Definition uint64_t := mk_ity 8 false.
(** GCC's [__int128], the integer type of a size other than 1, 2, 4, 8. *)
Definition int128_t := mk_ity 16 true.

(** Parameter types of the intrinsics. *)
Definition char_t := int8_t.
Definition short_t := int16_t.
Definition int_t := int32_t.
Definition long_long_t := int64_t.

Definition bits (t : ity) : Z := 8 * ity_size t.

Definition min_value (t : ity) : Z :=
  if ity_signed t then - 2 ^ (bits t - 1) else 0.
Definition max_value (t : ity) : Z :=
  if ity_signed t then 2 ^ (bits t - 1) - 1 else 2 ^ bits t - 1.

Definition in_range (t : ity) (z : Z) : bool :=
  (min_value t <=? z) && (z <=? max_value t).

(** Low [w] bits, as an unsigned number. *)
Definition to_bits (w z : Z) : Z := z mod 2 ^ w.

(** Low [w] bits, read in two's complement. *)
Definition sext (w z : Z) : Z :=
  let u := to_bits w z in
  if u <? 2 ^ (w - 1) then u else u - 2 ^ w.

(** Integral conversion to [t] ([static_cast], initialisation, return). *)
Definition conv (t : ity) (z : Z) : Z :=
  if ity_signed t then sext (bits t) z else to_bits (bits t) z.

(** Integral promotion: every type narrower than [int] becomes [int]. *)
Definition promote (t : ity) : ity :=
  if ity_size t <? ity_size int_t then int_t else t.

(** [a OP b] on two [t] operands, the result converted back to [t]
    (the [return] of a backend function of [value_type t]). *)
Definition cpp_binop (f : Z -> Z -> Z) (t : ity) (a b : Z) : res Z :=
  let p := promote t in
  let r := f a b in
  if ity_signed p then
    if in_range p r then Ok (conv t r) else Undef
  else Ok (conv t (to_bits (bits p) r)).

Definition cpp_add := cpp_binop Z.add.
Definition cpp_sub := cpp_binop Z.sub.
Definition cpp_mul := cpp_binop Z.mul.
(** [a / b]: truncating division; a zero divisor is undefined behaviour. *)
Definition cpp_div (t : ity) (a b : Z) : res Z :=
  if b =? 0 then Undef else cpp_binop Z.quot t a b.

(** ** technique_backend_scalar *)

Module Scalar.
Definition add (t : ity) (a b : Z) : res Z := cpp_add t a b.
Definition sub (t : ity) (a b : Z) : res Z := cpp_sub t a b.
Definition mul (t : ity) (a b : Z) : res Z := cpp_mul t a b.
Definition div (t : ity) (a b : Z) : res Z := cpp_div t a b.
End Scalar.

(** ** SIMD registers *)

(** Lanes of width [w], lane 0 in the low bits. *)
Fixpoint pack (w : Z) (l : list Z) : Z :=
  match l with
  | [] => 0
  | x :: l' => to_bits w x + 2 ^ w * pack w l'
  end.

Definition lane (w : Z) (i : nat) (r : Z) : Z :=
  Z.land (Z.shiftr r (Z.of_nat i * w)) (Z.ones w).

Definition unpack (w : Z) (n : nat) (r : Z) : list Z :=
  map (fun i => lane w i r) (seq 0 n).

(** Broadcast [x] to the [n] lanes of width [w]. *)
Definition set1 (w : Z) (n : nat) (x : Z) : Z := pack w (repeat x n).

(** A lane-wise operation over [n] lanes of width [w]. *)
Definition lanewise (w : Z) (n : nat) (f : Z -> Z -> Z) (ra rb : Z) : Z :=
  pack w (map (fun '(x, y) => f x y) (combine (unpack w n ra) (unpack w n rb))).

(** Low half of the signed product, as in [pmullw], [pmulld], [vpmullq]. *)
Definition mullo (w : Z) (x y : Z) : Z := sext w x * sext w y.

Module Intrin.
(** MMX, 64-bit [__m64]. *)
Definition mm_set1_pi8 (c : Z) : Z := set1 8 8 c.
Definition mm_set1_pi16 (s : Z) : Z := set1 16 4 s.
Definition mm_set1_pi32 (i : Z) : Z := set1 32 2 i.
Definition m_from_int64 (x : Z) : Z := to_bits 64 x.
Definition mm_add_pi8 := lanewise 8 8 Z.add.
Definition mm_add_pi16 := lanewise 16 4 Z.add.
Definition mm_add_pi32 := lanewise 32 2 Z.add.
Definition mm_add_si64 (a b : Z) : Z := to_bits 64 (a + b).
Definition mm_sub_pi8 := lanewise 8 8 Z.sub.
Definition mm_sub_pi16 := lanewise 16 4 Z.sub.
Definition mm_sub_pi32 := lanewise 32 2 Z.sub.
Definition mm_sub_si64 (a b : Z) : Z := to_bits 64 (a - b).
Definition mm_mullo_pi16 := lanewise 16 4 (mullo 16).
(** The low 32 bits of the register, as an [int]. *)
Definition mm_cvtsi64_si32 (r : Z) : Z := sext 32 r.
Definition mm_cvtm64_si64 (r : Z) : Z := sext 64 r.

(** SSE2 / SSE4.1, 128-bit [__m128i]. *)
Definition mm_set1_epi8 (c : Z) : Z := set1 8 16 c.
Definition mm_set1_epi16 (s : Z) : Z := set1 16 8 s.
Definition mm_set1_epi32 (i : Z) : Z := set1 32 4 i.
Definition mm_set1_epi64x (q : Z) : Z := set1 64 2 q.
Definition mm_add_epi8 := lanewise 8 16 Z.add.
Definition mm_add_epi16 := lanewise 16 8 Z.add.
Definition mm_add_epi32 := lanewise 32 4 Z.add.
Definition mm_add_epi64 := lanewise 64 2 Z.add.
Definition mm_sub_epi8 := lanewise 8 16 Z.sub.
Definition mm_sub_epi16 := lanewise 16 8 Z.sub.
Definition mm_sub_epi32 := lanewise 32 4 Z.sub.
Definition mm_sub_epi64 := lanewise 64 2 Z.sub.
Definition mm_mullo_epi16 := lanewise 16 8 (mullo 16).
Definition mm_mullo_epi32 := lanewise 32 4 (mullo 32).
(** [_mm_extract_epi8] and [_mm_extract_epi16] zero-extend the lane to
    [int]; [_mm_extract_epi32] and [_mm_extract_epi64] return it as
    [int] and [long long]. *)
Definition mm_extract_epi8 (r : Z) (i : nat) : Z := lane 8 i r.
Definition mm_extract_epi16 (r : Z) (i : nat) : Z := lane 16 i r.
Definition mm_extract_epi32 (r : Z) (i : nat) : Z := sext 32 (lane 32 i r).
Definition mm_extract_epi64 (r : Z) (i : nat) : Z := sext 64 (lane 64 i r).

(** AVX2, 256-bit [__m256i]. *)
Definition mm256_set1_epi8 (c : Z) : Z := set1 8 32 c.
Definition mm256_set1_epi16 (s : Z) : Z := set1 16 16 s.
Definition mm256_set1_epi32 (i : Z) : Z := set1 32 8 i.
Definition mm256_set1_epi64x (q : Z) : Z := set1 64 4 q.
Definition mm256_add_epi8 := lanewise 8 32 Z.add.
Definition mm256_add_epi16 := lanewise 16 16 Z.add.
Definition mm256_add_epi32 := lanewise 32 8 Z.add.
Definition mm256_add_epi64 := lanewise 64 4 Z.add.
Definition mm256_sub_epi8 := lanewise 8 32 Z.sub.
Definition mm256_sub_epi16 := lanewise 16 16 Z.sub.
Definition mm256_sub_epi32 := lanewise 32 8 Z.sub.
Definition mm256_sub_epi64 := lanewise 64 4 Z.sub.
Definition mm256_mullo_epi16 := lanewise 16 16 (mullo 16).
Definition mm256_mullo_epi32 := lanewise 32 8 (mullo 32).
Definition mm256_mullo_epi64 := lanewise 64 4 (mullo 64).
Definition mm256_extract_epi8 (r : Z) (i : nat) : Z := lane 8 i r.
Definition mm256_extract_epi16 (r : Z) (i : nat) : Z := lane 16 i r.
Definition mm256_extract_epi32 (r : Z) (i : nat) : Z := sext 32 (lane 32 i r).
Definition mm256_extract_epi64 (r : Z) (i : nat) : Z := sext 64 (lane 64 i r).
End Intrin.

(** ** technique_backend_mmx *)

Module MMX.
Import Intrin.

Definition add (t : ity) (a b : Z) : res Z :=
  if ity_size t =? 1 then
    let va := mm_set1_pi8 (conv char_t a) in
    let vb := mm_set1_pi8 (conv char_t b) in
    let vc := mm_add_pi8 va vb in
    Ok (conv t (mm_cvtsi64_si32 vc))
  else if ity_size t =? 2 then
    let va := mm_set1_pi16 (conv short_t a) in
    let vb := mm_set1_pi16 (conv short_t b) in
    let vc := mm_add_pi16 va vb in
    Ok (conv t (mm_cvtsi64_si32 vc))
  else if ity_size t =? 4 then
    let va := mm_set1_pi32 (conv int_t a) in
    let vb := mm_set1_pi32 (conv int_t b) in
    let vc := mm_add_pi32 va vb in
    Ok (conv t (mm_cvtsi64_si32 vc))
  else if ity_size t =? 8 then
    let va := m_from_int64 (conv long_long_t a) in
    let vb := m_from_int64 (conv long_long_t b) in
    let vc := mm_add_si64 va vb in
    Ok (conv t (mm_cvtm64_si64 vc))
  else cpp_add t a b.

Definition sub (t : ity) (a b : Z) : res Z :=
  if ity_size t =? 1 then
    let va := mm_set1_pi8 (conv char_t a) in
    let vb := mm_set1_pi8 (conv char_t b) in
    let vc := mm_sub_pi8 va vb in
    Ok (conv t (mm_cvtsi64_si32 vc))
  else if ity_size t =? 2 then
    let va := mm_set1_pi16 (conv short_t a) in
    let vb := mm_set1_pi16 (conv short_t b) in
    let vc := mm_sub_pi16 va vb in
    Ok (conv t (mm_cvtsi64_si32 vc))
  else if ity_size t =? 4 then
    let va := mm_set1_pi32 (conv int_t a) in
    let vb := mm_set1_pi32 (conv int_t b) in
    let vc := mm_sub_pi32 va vb in
    Ok (conv t (mm_cvtsi64_si32 vc))
  else if ity_size t =? 8 then
    let va := m_from_int64 (conv long_long_t a) in
    let vb := m_from_int64 (conv long_long_t b) in
    let vc := mm_sub_si64 va vb in
    Ok (conv t (mm_cvtm64_si64 vc))
  else cpp_sub t a b.

Definition mul (t : ity) (a b : Z) : res Z :=
  if ity_size t =? 1 then
    let va := mm_set1_pi16 (conv short_t a) in
    let vb := mm_set1_pi16 (conv short_t b) in
    let vc := mm_mullo_pi16 va vb in
    Ok (conv t (mm_cvtsi64_si32 vc))
  else if ity_size t =? 2 then
    let va := mm_set1_pi16 (conv short_t a) in
    let vb := mm_set1_pi16 (conv short_t b) in
    let vc := mm_mullo_pi16 va vb in
    Ok (conv t (mm_cvtsi64_si32 vc))
  else cpp_mul t a b.

Definition div (t : ity) (a b : Z) : res Z := cpp_div t a b.
End MMX.

(** ** technique_backend_sse *)

Module SSE.
Import Intrin.

(** [value_type _result = 0;] and no branch for other sizes. *)
Definition add (t : ity) (a b : Z) : res Z :=
  if ity_size t =? 1 then
    let va := mm_set1_epi8 (conv char_t a) in
    let vb := mm_set1_epi8 (conv char_t b) in
    let vc := mm_add_epi8 va vb in
    Ok (conv t (mm_extract_epi8 vc 0))
  else if ity_size t =? 2 then
    let va := mm_set1_epi16 (conv short_t a) in
    let vb := mm_set1_epi16 (conv short_t b) in
    let vc := mm_add_epi16 va vb in
    Ok (conv t (mm_extract_epi16 vc 0))
  else if ity_size t =? 4 then
    let va := mm_set1_epi32 (conv int_t a) in
    let vb := mm_set1_epi32 (conv int_t b) in
    let vc := mm_add_epi32 va vb in
    Ok (conv t (mm_extract_epi32 vc 0))
  else if ity_size t =? 8 then
    let va := mm_set1_epi64x (conv long_long_t a) in
    let vb := mm_set1_epi64x (conv long_long_t b) in
    let vc := mm_add_epi64 va vb in
    Ok (conv t (mm_extract_epi64 vc 0))
  else Ok (conv t 0).

Definition sub (t : ity) (a b : Z) : res Z :=
  if ity_size t =? 1 then
    let va := mm_set1_epi8 (conv char_t a) in
    let vb := mm_set1_epi8 (conv char_t b) in
    let vc := mm_sub_epi8 va vb in
    Ok (conv t (mm_extract_epi8 vc 0))
  else if ity_size t =? 2 then
    let va := mm_set1_epi16 (conv short_t a) in
    let vb := mm_set1_epi16 (conv short_t b) in
    let vc := mm_sub_epi16 va vb in
    Ok (conv t (mm_extract_epi16 vc 0))
  else if ity_size t =? 4 then
    let va := mm_set1_epi32 (conv int_t a) in
    let vb := mm_set1_epi32 (conv int_t b) in
    let vc := mm_sub_epi32 va vb in
    Ok (conv t (mm_extract_epi32 vc 0))
  else if ity_size t =? 8 then
    let va := mm_set1_epi64x (conv long_long_t a) in
    let vb := mm_set1_epi64x (conv long_long_t b) in
    let vc := mm_sub_epi64 va vb in
    Ok (conv t (mm_extract_epi64 vc 0))
  else Ok (conv t 0).

Definition mul (t : ity) (a b : Z) : res Z :=
  if ity_size t =? 1 then
    let va := mm_set1_epi16 (conv short_t a) in
    let vb := mm_set1_epi16 (conv short_t b) in
    let vc := mm_mullo_epi16 va vb in
    Ok (conv t (mm_extract_epi16 vc 0))
  else if ity_size t =? 2 then
    let va := mm_set1_epi16 (conv short_t a) in
    let vb := mm_set1_epi16 (conv short_t b) in
    let vc := mm_mullo_epi16 va vb in
    Ok (conv t (mm_extract_epi16 vc 0))
  else if ity_size t =? 4 then
    let va := mm_set1_epi32 (conv int_t a) in
    let vb := mm_set1_epi32 (conv int_t b) in
    let vc := mm_mullo_epi32 va vb in
    Ok (conv t (mm_extract_epi32 vc 0))
  else cpp_mul t a b.

Definition div (t : ity) (a b : Z) : res Z := cpp_div t a b.
End SSE.

(** ** technique_backend_avx *)

Module AVX.
Import Intrin.

Definition add (t : ity) (a b : Z) : res Z :=
  if ity_size t =? 1 then
    let va := mm256_set1_epi8 (conv char_t a) in
    let vb := mm256_set1_epi8 (conv char_t b) in
    let vc := mm256_add_epi8 va vb in
    Ok (conv t (mm256_extract_epi8 vc 0))
  else if ity_size t =? 2 then
    let va := mm256_set1_epi16 (conv short_t a) in
    let vb := mm256_set1_epi16 (conv short_t b) in
    let vc := mm256_add_epi16 va vb in
    Ok (conv t (mm256_extract_epi16 vc 0))
  else if ity_size t =? 4 then
    let va := mm256_set1_epi32 (conv int_t a) in
    let vb := mm256_set1_epi32 (conv int_t b) in
    let vc := mm256_add_epi32 va vb in
    Ok (conv t (mm256_extract_epi32 vc 0))
  else if ity_size t =? 8 then
    let va := mm256_set1_epi64x (conv long_long_t a) in
    let vb := mm256_set1_epi64x (conv long_long_t b) in
    let vc := mm256_add_epi64 va vb in
    Ok (conv t (mm256_extract_epi64 vc 0))
  else Ok (conv t 0).

(** Whether [t] is a class type with the data members [low] and [hight]
    that the [sizeof(TINT) == 16] branch of [sub] reads and writes.
    Every [TINT] modelled here is a fundamental integer type, which has
    no members. *)
Definition has_low_hight (t : ity) : bool := false.

(** The branches of [sub] for the sizes 1, 2, 4 and 8. *)
Definition sub_lanes (t : ity) (a b : Z) : res Z :=
  if ity_size t =? 1 then
    let va := mm256_set1_epi8 (conv char_t a) in
    let vb := mm256_set1_epi8 (conv char_t b) in
    let vc := mm256_sub_epi8 va vb in
    Ok (conv t (mm256_extract_epi8 vc 0))
  else if ity_size t =? 2 then
    let va := mm256_set1_epi16 (conv short_t a) in
    let vb := mm256_set1_epi16 (conv short_t b) in
    let vc := mm256_sub_epi16 va vb in
    Ok (conv t (mm256_extract_epi16 vc 0))
  else if ity_size t =? 4 then
    let va := mm256_set1_epi32 (conv int_t a) in
    let vb := mm256_set1_epi32 (conv int_t b) in
    let vc := mm256_sub_epi32 va vb in
    Ok (conv t (mm256_extract_epi32 vc 0))
  else if ity_size t =? 8 then
    let va := mm256_set1_epi64x (conv long_long_t a) in
    let vb := mm256_set1_epi64x (conv long_long_t b) in
    let vc := mm256_sub_epi64 va vb in
    Ok (conv t (mm256_extract_epi64 vc 0))
  else Ok (conv t 0).

(** [sub] has a fifth branch, [else if(sizeof(TINT) == 16)], that reads
    [a.low], [a.hight], [b.low], [b.hight] and assigns [_result.low] and
    [_result.hight]. The test is a plain [if], so the branch is
    type-checked whenever [sub] is instantiated: the instantiation is
    ill-formed unless [TINT] has those members. *)
Definition sub (t : ity) (a b : Z) : res Z :=
  if has_low_hight t then sub_lanes t a b else Rejected.

Definition mul (t : ity) (a b : Z) : res Z :=
  if ity_size t =? 1 then
    let va := mm256_set1_epi16 (conv short_t a) in
    let vb := mm256_set1_epi16 (conv short_t b) in
    let vc := mm256_mullo_epi16 va vb in
    Ok (conv t (mm256_extract_epi16 vc 0))
  else if ity_size t =? 2 then
    let va := mm256_set1_epi16 (conv short_t a) in
    let vb := mm256_set1_epi16 (conv short_t b) in
    let vc := mm256_mullo_epi16 va vb in
    Ok (conv t (mm256_extract_epi16 vc 0))
  else if ity_size t =? 4 then
    let va := mm256_set1_epi32 (conv int_t a) in
    let vb := mm256_set1_epi32 (conv int_t b) in
    let vc := mm256_mullo_epi32 va vb in
    Ok (conv t (mm256_extract_epi32 vc 0))
  else if ity_size t =? 8 then
    let va := mm256_set1_epi64x (conv long_long_t a) in
    let vb := mm256_set1_epi64x (conv long_long_t b) in
    let vc := mm256_mullo_epi64 va vb in
    Ok (conv t (mm256_extract_epi64 vc 0))
  else Ok (conv t 0).

Definition div (t : ity) (a b : Z) : res Z := cpp_div t a b.
End AVX.

(** ** Backends and operations *)

Inductive backend := BScalar | BMMX | BSSE | BAVX.
Inductive op := OAdd | OSub | OMul | ODiv.

Definition run (bk : backend) (o : op) : ity -> Z -> Z -> res Z :=
  match bk, o with
  | BScalar, OAdd => Scalar.add | BScalar, OSub => Scalar.sub
  | BScalar, OMul => Scalar.mul | BScalar, ODiv => Scalar.div
  | BMMX, OAdd => MMX.add | BMMX, OSub => MMX.sub
  | BMMX, OMul => MMX.mul | BMMX, ODiv => MMX.div
  | BSSE, OAdd => SSE.add | BSSE, OSub => SSE.sub
  | BSSE, OMul => SSE.mul | BSSE, ODiv => SSE.div
  | BAVX, OAdd => AVX.add | BAVX, OSub => AVX.sub
  | BAVX, OMul => AVX.mul | BAVX, ODiv => AVX.div
  end.

(** ** adaptive_techniq.h *)

(** The capability macros of the build. *)
Record config := mk_config {
  has_MMX : bool;     (** [__MMX__] *)
  has_SSE2 : bool;    (** [__SSE2__] *)
  has_AVX2 : bool;    (** [__AVX2__] *)
  has_AVX512 : bool;  (** [__AVX512__] *)
  has_NEON : bool;    (** [__NEON__] *)
  has_GPU : bool      (** [__GPU__] *)
}.

Local Open Scope string_scope.

(** The enumerators of [enum class techn_type], in declaration order.
    Under [__NEON__] the source declares [AVX512 = 16]. A value of
    [techn_type] is its underlying [int]: a [static_cast] yields any. *)
Definition enumerators (c : config) : list (string * Z) :=
  [("Scalar", 0)]
  ++ (if has_MMX c then [("MMX", 1)] else [])
  ++ (if has_SSE2 c then [("SSE", 2)] else [])
  ++ (if has_AVX2 c then [("AVX", 4)] else [])
  ++ (if has_AVX512 c then [("AVX512", 8)] else [])
  ++ (if has_NEON c then [("AVX512", 16)] else [])
  ++ (if has_GPU c then [("OpenCL", 200); ("Vulkan", 201)] else [])
  ++ [("internal", 255)].

Fixpoint names_distinct (l : list (string * Z)) : bool :=
  match l with
  | [] => true
  | (n, _) :: l' =>
      negb (existsb (fun '(m, _) => String.eqb n m) l') && names_distinct l'
  end.

(** [techn_type::name], when the enumerator is declared. *)
Definition enumerator (c : config) (name : string) : option Z :=
  match find (fun '(m, _) => String.eqb name m) (enumerators c) with
  | Some (_, v) => Some v
  | None => None
  end.

(** The enum declaration is ill-formed if it declares a name twice. *)
Definition enum_ok (c : config) : bool := names_distinct (enumerators c).

(** The [case] labels of the [switch] in [technt2string] and the string
    each one assigns. *)
Definition technt2string_cases (c : config) : list (string * string) :=
  (if has_MMX c then [("MMX", "MMX")] else [])
  ++ (if has_SSE2 c then [("SSE", "SSE")] else [])
  ++ (if has_AVX2 c then [("AVX", "AVX")] else [])
  ++ (if has_AVX512 c then [("AVX512", "AVX512")] else [])
  ++ (if has_NEON c then [("NEON", "NEON")] else [])
  ++ (if has_GPU c then [("OpenCL", "OpenCL"); ("Vulkan", "Vulkan")] else []).

(** Every case label must name a declared enumerator. *)
Definition technt2string_ok (c : config) : bool :=
  enum_ok c
  && forallb (fun '(n, _) => if enumerator c n then true else false)
       (technt2string_cases c).

Definition technt2string (c : config) (tech : Z) : res string :=
  if negb (technt2string_ok c) then Rejected
  else
    let _res := "Scalar" in
    let matching :=
      find (fun '(n, _) => match enumerator c n with
                           | Some v => Z.eqb v tech
                           | None => false
                           end) (technt2string_cases c) in
    match matching with
    | Some (_, s) => Ok s
    | None => Ok "Scalar"   (* default: _res = "Scalar"; *)
    end.

(** [internal::detected_techniq_used<TINT>()], as a function of
    [sizeof(TINT)]. The names [techn_type::SSE] and [techn_type::AVX] do
    not depend on [TINT]: they must be declared where the template is
    defined. *)
Definition detected_techniq_used (c : config) (size : Z) : res Z :=
  match enumerator c "Scalar", enumerator c "SSE", enumerator c "AVX",
        enumerator c "internal" with
  | Some scalar, Some sse, Some avx, Some internal =>
      if negb (enum_ok c) then Rejected
      else
        let _result := internal in
        let _result :=
          if Z.eqb _result internal then
            if Z.leb size 4 then scalar
            else if Z.leb size 8 then sse
            else avx
          else _result in
        Ok _result
  | _, _, _, _ => Rejected
  end.

Local Close Scope string_scope.

(** ** technique_selector *)

Definition ity_eqb (t u : ity) : bool :=
  Z.eqb (ity_size t) (ity_size u) && Bool.eqb (ity_signed t) (ity_signed u).

(** The explicit specializations [technique_selector<T, techn_t::X>]. *)
Definition explicit_specs : list (ity * string * backend) :=
  [(uint8_t, "Scalar"%string, BScalar); (uint16_t, "Scalar"%string, BScalar);
   (uint32_t, "Scalar"%string, BScalar); (uint64_t, "SSE"%string, BSSE);
   (int8_t, "Scalar"%string, BScalar); (int16_t, "Scalar"%string, BScalar);
   (int32_t, "Scalar"%string, BScalar); (int64_t, "SSE"%string, BSSE)].

(** The partial specializations [technique_selector<TINT, techn_type::X>],
    each under its capability macro. The [AVX512] one names
    [technique_backend_avx]. *)
Definition partial_specs (c : config) : list (string * backend) :=
  [("Scalar"%string, BScalar); ("internal"%string, BScalar)]
  ++ (if has_MMX c then [("MMX"%string, BMMX)] else [])
  ++ (if has_SSE2 c then [("SSE"%string, BSSE)] else [])
  ++ (if has_AVX2 c then [("AVX"%string, BAVX)] else [])
  ++ (if has_AVX512 c then [("AVX512"%string, BAVX)] else []).

Definition names_declared (c : config) (l : list string) : bool :=
  forallb (fun n => if enumerator c n then true else false) l.

(** The specializations are well-formed when every technique they name is
    declared (the explicit ones name [techn_t::SSE] unconditionally). *)
Definition selector_ok (c : config) : bool :=
  enum_ok c
  && names_declared c (map (fun '(_, n, _) => n) explicit_specs)
  && names_declared c (map fst (partial_specs c)).

Definition names_tech (c : config) (n : string) (tech : Z) : bool :=
  match enumerator c n with Some v => Z.eqb v tech | None => false end.

(** [typename technique_selector<TINT, TTECH>::type]: a matching explicit
    specialization, else a matching partial one, else the primary template
    ([technique_backend_scalar<TINT>]). *)
Definition technique_selector (c : config) (t : ity) (tech : Z) : res backend :=
  if negb (selector_ok c) then Rejected
  else
    match find (fun '(u, n, _) => ity_eqb t u && names_tech c n tech)
               explicit_specs with
    | Some (_, _, bk) => Ok bk
    | None =>
        match find (fun '(n, _) => names_tech c n tech) (partial_specs c) with
        | Some (_, bk) => Ok bk
        | None => Ok BScalar
        end
    end.

(** ** adaptive_number *)

(** An object of [adaptive_number<TINT, TTECH>]: its template arguments
    and its one data member. *)
Record adaptive_number := mk_an {
  an_type : ity;
  an_tech : Z;
  m_tiValue : Z
}.

Definition value (x : adaptive_number) : Z := m_tiValue x.
Definition get_techniq (x : adaptive_number) : Z := an_tech x.

Definition with_value (x : adaptive_number) (v : Z) : adaptive_number :=
  mk_an (an_type x) (an_tech x) v.

Definition backend_type (c : config) (x : adaptive_number) : res backend :=
  technique_selector c (an_type x) (an_tech x).

(** [this_type operator ++ (int)]:
    [m_tiValue = backend_type::add(m_tiValue, 1); return *this;].
    The result is the updated object and the returned copy. *)
Definition post_inc (c : config) (x : adaptive_number)
  : res (adaptive_number * adaptive_number) :=
  bk <- backend_type c x ;;
  r <- run bk OAdd (an_type x) (m_tiValue x) (conv (an_type x) 1) ;;
  let x' := with_value x r in
  Ok (x', x').

(** [this_type operator -- (int)]:
    [m_tiValue = backend_type::sub(m_tiValue, 1); return *this;]. *)
Definition post_dec (c : config) (x : adaptive_number)
  : res (adaptive_number * adaptive_number) :=
  bk <- backend_type c x ;;
  r <- run bk OSub (an_type x) (m_tiValue x) (conv (an_type x) 1) ;;
  let x' := with_value x r in
  Ok (x', x').

(** [x++; x--;] as two statements: the object after both. *)
Definition inc_then_dec (c : config) (x : adaptive_number) : res adaptive_number :=
  p <- post_inc c x ;;
  q <- post_dec c (fst p) ;;
  Ok (fst q).

(** A member function as the compiler checks it: whether it is declared
    [const] and whether its body assigns a data member. [m_tiValue] is not
    declared [mutable], so a [const] member function may not assign it. *)
Record member_fn := mk_member_fn { mf_const : bool; mf_assigns_member : bool }.

Definition member_fn_ok (f : member_fn) : bool :=
  negb (mf_const f && mf_assigns_member f).

(** [void set(const value_type v) const { m_tiValue = v; }] *)
Definition set_decl : member_fn := mk_member_fn true true.

Definition set (x : adaptive_number) (v : Z) : res adaptive_number :=
  if member_fn_ok set_decl then Ok (with_value x (conv (an_type x) v))
  else Rejected.

(** [this_type operator + (const_refernce other) const], and likewise
    [-], [*] and [/]:
    [this_type result ( backend_type::add(m_tiValue, other.m_tiValue ) );
    return result;]. [other] has the type [this_type]. *)
Definition binary_op (c : config) (o : op) (x other : adaptive_number)
  : res adaptive_number :=
  bk <- backend_type c x ;;
  r <- run bk o (an_type x) (m_tiValue x) (m_tiValue other) ;;
  Ok (mk_an (an_type x) (an_tech x) r).

Definition operator_plus (c : config) := binary_op c OAdd.
Definition operator_minus (c : config) := binary_op c OSub.
Definition operator_mul (c : config) := binary_op c OMul.
Definition operator_div (c : config) := binary_op c ODiv.

(** [this_type& operator += (const_refernce other)], and likewise [-=],
    [*=] and [/=]:
    [m_tiValue = backend_type::add(m_tiValue, other.m_tiValue ); return *this;].
    The result is the updated object. *)
Definition compound_assign (c : config) (o : op) (x other : adaptive_number)
  : res adaptive_number :=
  bk <- backend_type c x ;;
  r <- run bk o (an_type x) (m_tiValue x) (m_tiValue other) ;;
  Ok (with_value x r).

(** The comparison operators compare [m_tiValue] with [o.m_tiValue]. *)
Definition operator_eq (x o : adaptive_number) : bool :=
  Z.eqb (m_tiValue x) (m_tiValue o).
Definition operator_ne (x o : adaptive_number) : bool :=
  negb (Z.eqb (m_tiValue x) (m_tiValue o)).
Definition operator_lt (x o : adaptive_number) : bool :=
  Z.ltb (m_tiValue x) (m_tiValue o).
Definition operator_gt (x o : adaptive_number) : bool :=
  Z.gtb (m_tiValue x) (m_tiValue o).
Definition operator_le (x a : adaptive_number) : bool :=
  Z.leb (m_tiValue x) (m_tiValue a).
Definition operator_ge (x a : adaptive_number) : bool :=
  Z.geb (m_tiValue x) (m_tiValue a).

(** [ADAPTIVE_BASE_TECHNIQ_USE], the default [TTECH] of [adaptive_number]
    (so of [int8s_t] ... [uint64s_t]) and of the [*ts_t] aliases:
    [internal::detected_techniq_used<TINT>()]. *)
Definition default_techniq (c : config) (t : ity) : res Z :=
  detected_techniq_used c (ity_size t).

(** The [backend_type] of [adaptive_number<TINT>] with the default [TTECH]. *)
Definition default_backend (c : config) (t : ity) : res backend :=
  tech <- default_techniq c t ;;
  technique_selector c t tech.


(** A build for x86-64 with AVX2 (GCC defines [__MMX__], [__SSE2__] and
    [__AVX2__] under [-mavx2]). *)
Definition x86_avx2 : config := mk_config true true true false false false.
(** The same build with [__NEON__] defined. *)
Definition x86_avx2_neon : config := mk_config true true true false true false.

(** * Properties *)

(** ** Arithmetic modulo a power of two *)

Definition eqm (w x y : Z) : Prop := to_bits w x = to_bits w y.

Section Eqm.
Variable w : Z.
Hypothesis Hw : 0 <= w.

Lemma pow2_pos : 0 < 2 ^ w.
Proof. apply Z.pow_pos_nonneg; lia. Qed.

Lemma eqm_refl x : eqm w x x.
Proof. reflexivity. Qed.

Lemma eqm_sym x y : eqm w x y -> eqm w y x.
Proof. unfold eqm; congruence. Qed.

Lemma eqm_trans x y z : eqm w x y -> eqm w y z -> eqm w x z.
Proof. unfold eqm; congruence. Qed.

Lemma eqm_to_bits x : eqm w (to_bits w x) x.
Proof. unfold eqm, to_bits. apply Z.mod_mod. pose proof pow2_pos; lia. Qed.

Lemma eqm_add x x' y y' : eqm w x x' -> eqm w y y' -> eqm w (x + y) (x' + y').
Proof.
  unfold eqm, to_bits; intros E1 E2.
  rewrite Z.add_mod, E1, E2, <- Z.add_mod; pose proof pow2_pos; lia.
Qed.

Lemma eqm_sub x x' y y' : eqm w x x' -> eqm w y y' -> eqm w (x - y) (x' - y').
Proof.
  unfold eqm, to_bits; intros E1 E2.
  rewrite Zminus_mod, E1, E2, <- Zminus_mod; reflexivity.
Qed.

Lemma eqm_mul x x' y y' : eqm w x x' -> eqm w y y' -> eqm w (x * y) (x' * y').
Proof.
  unfold eqm, to_bits; intros E1 E2.
  rewrite Z.mul_mod, E1, E2, <- Z.mul_mod; pose proof pow2_pos; lia.
Qed.

Lemma eqm_sext x : eqm w (sext w x) x.
Proof.
  unfold sext. destruct (to_bits w x <? 2 ^ (w - 1)).
  - apply eqm_to_bits.
  - unfold eqm, to_bits at 1.
    replace (to_bits w x - 2 ^ w) with (to_bits w x + (-1) * 2 ^ w) by ring.
    rewrite Z.mod_add by (pose proof pow2_pos; lia).
    apply eqm_to_bits.
Qed.
End Eqm.

Lemma eqm_weaken w k x y : 0 <= w <= k -> eqm k x y -> eqm w x y.
Proof.
  unfold eqm, to_bits; intros H E.
  assert (D : (2 ^ w | 2 ^ k)).
  { exists (2 ^ (k - w)). rewrite <- Z.pow_add_r by lia. f_equal; lia. }
  rewrite <- (Z.mod_mod_divide x _ _ D), <- (Z.mod_mod_divide y _ _ D), E.
  reflexivity.
Qed.

Lemma conv_eqm t x y : eqm (bits t) x y -> conv t x = conv t y.
Proof. unfold conv, sext, eqm; intros E; rewrite E; reflexivity. Qed.

Lemma eqm_conv w t x : 0 <= w <= bits t -> eqm w (conv t x) x.
Proof.
  intros H. apply (eqm_weaken w (bits t)); [lia|].
  unfold conv; destruct (ity_signed t).
  - apply eqm_sext; lia.
  - apply eqm_to_bits; lia.
Qed.

(** ** Lane zero of a broadcast *)

Lemma lane_0 w r : 0 <= w -> lane w 0 r = to_bits w r.
Proof.
  intros Hw. unfold lane. rewrite Z.mul_0_l, Z.shiftr_0_r, Z.land_ones by lia.
  reflexivity.
Qed.

Lemma to_bits_pack_cons w x l : 0 <= w -> to_bits w (pack w (x :: l)) = to_bits w x.
Proof.
  intros Hw. pose proof (pow2_pos w Hw). simpl pack. unfold to_bits.
  rewrite Z.mul_comm, Z.mod_add, Z.mod_mod by lia. reflexivity.
Qed.

Section Steps.
Variables w k : Z.
Hypothesis Hwk : 0 <= w <= k.

Lemma step_to_bits x y : eqm w x y -> eqm w (to_bits k x) y.
Proof.
  intros E. eapply eqm_trans; [|exact E].
  apply (eqm_weaken w k); [lia|]. apply eqm_to_bits; lia.
Qed.

Lemma step_sext x y : eqm w x y -> eqm w (sext k x) y.
Proof.
  intros E. eapply eqm_trans; [|exact E].
  apply (eqm_weaken w k); [lia|]. apply eqm_sext; lia.
Qed.

Lemma step_lane0 x y : eqm w x y -> eqm w (lane k 0 x) y.
Proof. intros E. rewrite lane_0 by lia. apply step_to_bits, E. Qed.

Lemma step_set1 n x y : eqm w x y -> eqm w (set1 k (S n) x) y.
Proof.
  intros E. eapply eqm_trans; [|exact E].
  apply (eqm_weaken w k); [lia|]. unfold set1, eqm. simpl repeat.
  rewrite to_bits_pack_cons by lia. reflexivity.
Qed.

Lemma step_lanewise n f ra rb y :
  eqm w (f (lane k 0 ra) (lane k 0 rb)) y -> eqm w (lanewise k (S n) f ra rb) y.
Proof.
  intros E. eapply eqm_trans; [|exact E].
  apply (eqm_weaken w k); [lia|]. unfold lanewise, unpack, eqm. simpl seq. simpl map.
  simpl combine. simpl map. rewrite to_bits_pack_cons by lia.
  reflexivity.
Qed.
End Steps.

Lemma step_conv w t x y : 0 <= w <= bits t -> eqm w x y -> eqm w (conv t x) y.
Proof.
  intros H E. eapply eqm_trans; [|exact E]. apply eqm_conv; lia.
Qed.

Ltac unfold_intrin :=
  unfold Intrin.mm_set1_pi8, Intrin.mm_set1_pi16, Intrin.mm_set1_pi32,
    Intrin.m_from_int64, Intrin.mm_add_pi8, Intrin.mm_add_pi16, Intrin.mm_add_pi32,
    Intrin.mm_add_si64, Intrin.mm_sub_pi8, Intrin.mm_sub_pi16, Intrin.mm_sub_pi32,
    Intrin.mm_sub_si64, Intrin.mm_mullo_pi16, Intrin.mm_cvtsi64_si32,
    Intrin.mm_cvtm64_si64, Intrin.mm_set1_epi8, Intrin.mm_set1_epi16,
    Intrin.mm_set1_epi32, Intrin.mm_set1_epi64x, Intrin.mm_add_epi8,
    Intrin.mm_add_epi16, Intrin.mm_add_epi32, Intrin.mm_add_epi64,
    Intrin.mm_sub_epi8, Intrin.mm_sub_epi16, Intrin.mm_sub_epi32,
    Intrin.mm_sub_epi64, Intrin.mm_mullo_epi16, Intrin.mm_mullo_epi32,
    Intrin.mm_extract_epi8, Intrin.mm_extract_epi16, Intrin.mm_extract_epi32,
    Intrin.mm_extract_epi64, Intrin.mm256_set1_epi8, Intrin.mm256_set1_epi16,
    Intrin.mm256_set1_epi32, Intrin.mm256_set1_epi64x, Intrin.mm256_add_epi8,
    Intrin.mm256_add_epi16, Intrin.mm256_add_epi32, Intrin.mm256_add_epi64,
    Intrin.mm256_sub_epi8, Intrin.mm256_sub_epi16, Intrin.mm256_sub_epi32,
    Intrin.mm256_sub_epi64, Intrin.mm256_mullo_epi16, Intrin.mm256_mullo_epi32,
    Intrin.mm256_mullo_epi64, Intrin.mm256_extract_epi8, Intrin.mm256_extract_epi16,
    Intrin.mm256_extract_epi32, Intrin.mm256_extract_epi64 in *.

Ltac side := unfold bits; cbn; lia.

Ltac eqm_solve :=
  repeat first
    [ apply eqm_refl
    | apply step_sext; [side|]
    | apply step_to_bits; [side|]
    | apply step_lane0; [side|]
    | apply step_conv; [side|]
    | apply step_set1; [side|]
    | apply step_lanewise; [side|]
    | progress unfold mullo
    | apply eqm_sub; try side
    | apply eqm_add; try side
    | apply eqm_mul; try side ].

Example eqm_solve_test a b :
  eqm 8 (Intrin.mm_extract_epi16
           (Intrin.mm_mullo_epi16 (Intrin.mm_set1_epi16 (conv short_t a))
              (Intrin.mm_set1_epi16 (conv short_t b))) 0) (a * b).
Proof. unfold_intrin. eqm_solve. Qed.

(** ** Every vector backend wraps at the bound width *)

Definition valid_size (s : Z) : Prop := s = 1 \/ s = 2 \/ s = 4 \/ s = 8.

Ltac vec_case H :=
  rewrite H; cbn [Z.eqb Pos.eqb];
  try (f_equal; apply conv_eqm; unfold bits; rewrite H; unfold_intrin; eqm_solve).

Lemma MMX_add_wrap t a b : valid_size (ity_size t) -> MMX.add t a b = Ok (conv t (a + b)).
Proof. unfold MMX.add; intros [H|[H|[H|H]]]; vec_case H. Qed.

Lemma MMX_sub_wrap t a b : valid_size (ity_size t) -> MMX.sub t a b = Ok (conv t (a - b)).
Proof. unfold MMX.sub; intros [H|[H|[H|H]]]; vec_case H. Qed.

Lemma SSE_add_wrap t a b : valid_size (ity_size t) -> SSE.add t a b = Ok (conv t (a + b)).
Proof. unfold SSE.add; intros [H|[H|[H|H]]]; vec_case H. Qed.

Lemma SSE_sub_wrap t a b : valid_size (ity_size t) -> SSE.sub t a b = Ok (conv t (a - b)).
Proof. unfold SSE.sub; intros [H|[H|[H|H]]]; vec_case H. Qed.

Lemma AVX_add_wrap t a b : valid_size (ity_size t) -> AVX.add t a b = Ok (conv t (a + b)).
Proof. unfold AVX.add; intros [H|[H|[H|H]]]; vec_case H. Qed.

Lemma AVX_sub_lanes_wrap t a b :
  valid_size (ity_size t) -> AVX.sub_lanes t a b = Ok (conv t (a - b)).
Proof. unfold AVX.sub_lanes; intros [H|[H|[H|H]]]; vec_case H. Qed.

Lemma AVX_mul_wrap t a b : valid_size (ity_size t) -> AVX.mul t a b = Ok (conv t (a * b)).
Proof. unfold AVX.mul; intros [H|[H|[H|H]]]; vec_case H. Qed.

Lemma MMX_mul_narrow t a b :
  ity_size t = 1 \/ ity_size t = 2 -> MMX.mul t a b = Ok (conv t (a * b)).
Proof. unfold MMX.mul; intros [H|H]; vec_case H. Qed.

Lemma MMX_mul_wide t a b :
  ity_size t <> 1 -> ity_size t <> 2 -> MMX.mul t a b = cpp_mul t a b.
Proof.
  unfold MMX.mul; intros H1 H2.
  rewrite (proj2 (Z.eqb_neq _ _) H1), (proj2 (Z.eqb_neq _ _) H2). reflexivity.
Qed.

Lemma SSE_mul_narrow t a b :
  ity_size t = 1 \/ ity_size t = 2 \/ ity_size t = 4 -> SSE.mul t a b = Ok (conv t (a * b)).
Proof. unfold SSE.mul; intros [H|[H|H]]; vec_case H. Qed.

Lemma SSE_mul_wide t a b :
  ity_size t <> 1 -> ity_size t <> 2 -> ity_size t <> 4 -> SSE.mul t a b = cpp_mul t a b.
Proof.
  unfold SSE.mul; intros H1 H2 H4.
  rewrite (proj2 (Z.eqb_neq _ _) H1), (proj2 (Z.eqb_neq _ _) H2),
    (proj2 (Z.eqb_neq _ _) H4). reflexivity.
Qed.

(** ** The scalar backend *)

Lemma pow2_split n : 1 <= n -> 2 ^ n = 2 * 2 ^ (n - 1).
Proof.
  intros H. replace n with (n - 1 + 1) at 1 by lia.
  rewrite Z.pow_add_r by lia. lia.
Qed.

Lemma in_range_iff t z :
  in_range t z = true <-> min_value t <= z <= max_value t.
Proof. unfold in_range; rewrite andb_true_iff, !Z.leb_le; tauto. Qed.

(** Converting a value that [t] represents leaves it unchanged. *)
Lemma conv_in_range t z : 1 <= ity_size t -> in_range t z = true -> conv t z = z.
Proof.
  intros Hs Hr. apply in_range_iff in Hr.
  unfold min_value, max_value in Hr. unfold conv, sext, to_bits.
  assert (Hb : 8 <= bits t) by (unfold bits; lia).
  pose proof (pow2_split (bits t) ltac:(lia)) as E.
  assert (0 < 2 ^ (bits t - 1)) by (apply Z.pow_pos_nonneg; lia).
  destruct (ity_signed t).
  - destruct (Z_lt_le_dec z 0) as [Hn|Hp].
    + rewrite <- (Z.mod_unique_pos z (2 ^ bits t) (-1) (z + 2 ^ bits t)) by lia.
      destruct (Z.ltb_spec (z + 2 ^ bits t) (2 ^ (bits t - 1))); lia.
    + rewrite Z.mod_small by lia.
      destruct (Z.ltb_spec z (2 ^ (bits t - 1))); lia.
  - apply Z.mod_small; lia.
Qed.

(** Whatever the scalar backend returns is the value wrapped to [t]. *)
Lemma cpp_binop_ok f t a b r :
  1 <= ity_size t -> cpp_binop f t a b = Ok r -> r = conv t (f a b).
Proof.
  intros Hs. unfold cpp_binop, promote.
  destruct (ity_size t <? ity_size int_t) eqn:E; cbn [ity_signed int_t int32_t].
  - destruct (in_range int_t (f a b)); intros H; inversion H; reflexivity.
  - destruct (ity_signed t) eqn:S.
    + destruct (in_range t (f a b)); intros H; inversion H; reflexivity.
    + intros H; inversion H; subst. apply conv_eqm. apply eqm_to_bits.
      unfold bits; lia.
Qed.

(** On an unsigned type at least as wide as [int] the operation wraps. *)
Lemma cpp_binop_unsigned_wide f t a b :
  ity_signed t = false -> 4 <= ity_size t -> cpp_binop f t a b = Ok (conv t (f a b)).
Proof.
  intros S W. unfold cpp_binop, promote. cbn [ity_size int_t int32_t].
  destruct (Z.ltb_spec (ity_size t) 4); [lia|]. rewrite S.
  f_equal. apply conv_eqm, eqm_to_bits. unfold bits; lia.
Qed.

(** When the exact result fits the promoted type there is no overflow. *)
Lemma cpp_binop_fits f t a b :
  1 <= ity_size t -> in_range (promote t) (f a b) = true ->
  cpp_binop f t a b = Ok (conv t (f a b)).
Proof.
  intros Hs H. unfold cpp_binop. rewrite H.
  destruct (ity_signed (promote t)) eqn:S; [reflexivity|].
  f_equal. unfold promote in *. destruct (ity_size t <? ity_size int_t); [discriminate|].
  apply conv_eqm, eqm_to_bits. unfold bits; lia.
Qed.

(** ** Vector tiers against the scalar backend *)

(** Wherever the scalar backend returns a value, the MMX, SSE and AVX
    backends return the same value, except AVX [sub], which never
    compiles (see [AVX_sub_rejected]). *)
Lemma vector_matches_scalar bk o t a b r :
  valid_size (ity_size t) -> (bk, o) <> (BAVX, OSub) ->
  run BScalar o t a b = Ok r -> run bk o t a b = Ok r.
Proof.
  intros Hv Hx Hs.
  assert (H1 : 1 <= ity_size t) by (destruct Hv as [H|[H|[H|H]]]; lia).
  destruct bk; [exact Hs| | |];
    (destruct o; cbn [run] in *;
     [ | | | exact Hs ];
     unfold Scalar.add, Scalar.sub, Scalar.mul, cpp_add, cpp_sub, cpp_mul in Hs).
  - apply cpp_binop_ok in Hs as ->; [apply MMX_add_wrap, Hv | exact H1].
  - apply cpp_binop_ok in Hs as ->; [apply MMX_sub_wrap, Hv | exact H1].
  - destruct Hv as [H|[H|[H|H]]].
    + apply cpp_binop_ok in Hs as ->; [apply MMX_mul_narrow; lia | exact H1].
    + apply cpp_binop_ok in Hs as ->; [apply MMX_mul_narrow; lia | exact H1].
    + rewrite MMX_mul_wide by lia. exact Hs.
    + rewrite MMX_mul_wide by lia. exact Hs.
  - apply cpp_binop_ok in Hs as ->; [apply SSE_add_wrap, Hv | exact H1].
  - apply cpp_binop_ok in Hs as ->; [apply SSE_sub_wrap, Hv | exact H1].
  - destruct Hv as [H|[H|[H|H]]].
    + apply cpp_binop_ok in Hs as ->; [apply SSE_mul_narrow; lia | exact H1].
    + apply cpp_binop_ok in Hs as ->; [apply SSE_mul_narrow; lia | exact H1].
    + apply cpp_binop_ok in Hs as ->; [apply SSE_mul_narrow; lia | exact H1].
    + rewrite SSE_mul_wide by lia. exact Hs.
  - apply cpp_binop_ok in Hs as ->; [apply AVX_add_wrap, Hv | exact H1].
  - exfalso; apply Hx; reflexivity.
  - apply cpp_binop_ok in Hs as ->; [apply AVX_mul_wrap, Hv | exact H1].
Qed.


(** All tiers divide with the scalar [a / b]. *)
Lemma div_same_in_every_tier bk t a b : run bk ODiv t a b = Scalar.div t a b.
Proof. destruct bk; reflexivity. Qed.

(** ** Truncating division *)

Lemma quot_bounds a b :
  b <> 0 ->
  Z.abs (Z.quot a b) <= Z.abs a /\ (2 <= Z.abs b -> 2 * Z.abs (Z.quot a b) <= Z.abs a).
Proof.
  intros Hb. rewrite <- Z.quot_abs by exact Hb.
  rewrite Z.quot_div_nonneg by lia.
  pose proof (Z.mul_div_le (Z.abs a) (Z.abs b) ltac:(lia)).
  pose proof (Z.div_pos (Z.abs a) (Z.abs b) ltac:(lia) ltac:(lia)).
  split; [|intros]; nia.
Qed.

Lemma in_range_promote t z :
  valid_size (ity_size t) -> in_range t z = true -> in_range (promote t) z = true.
Proof.
  intros Hv H. apply in_range_iff in H. apply in_range_iff. revert H.
  destruct t as [sz [|]]; cbn [ity_size] in Hv;
    destruct Hv as [-> | [-> | [-> | ->]]];
    unfold promote, min_value, max_value, bits; cbn; lia.
Qed.

(** The one quotient of two [t] values that [t] cannot hold is
    [min_value t / -1], on a signed type. *)
Lemma quot_out_of_range t a b :
  valid_size (ity_size t) -> in_range t a = true -> in_range t b = true -> b <> 0 ->
  in_range t (Z.quot a b) = false ->
  ity_signed t = true /\ a = min_value t /\ b = -1.
Proof.
  intros Hv Ha Hb Hb0 Hq.
  apply in_range_iff in Ha. apply in_range_iff in Hb.
  assert (Hq' : ~ (min_value t <= Z.quot a b <= max_value t)).
  { intros C. apply in_range_iff in C. congruence. }
  destruct (quot_bounds a b Hb0) as [B1 B2].
  destruct (Z.eq_dec b 1) as [->|N1].
  { rewrite Z.quot_1_r in Hq'. lia. }
  destruct t as [sz [|]]; cbn [ity_size ity_signed] in *;
    unfold min_value, max_value, bits in *; cbn [ity_signed ity_size] in *;
    destruct Hv as [-> | [-> | [-> | ->]]]; cbn [ity_signed ity_size] in *.
  all: try (assert (0 <= Z.quot a b) by (apply Z.quot_pos; lia); lia).
  all: destruct (Z_lt_le_dec (Z.abs b) 2) as [Lt|Ge];
    [|specialize (B2 Ge); lia].
  all: assert (b = -1) by lia; subst b.
  all: pose proof (Z.quot_opp_r a 1 ltac:(lia)) as E;
    rewrite Z.quot_1_r in E; cbn [Z.opp] in E; rewrite E in Hq'.
  all: repeat split; lia.
Qed.

Lemma div_nonzero t a b : b <> 0 -> Scalar.div t a b = cpp_binop Z.quot t a b.
Proof.
  intros Hb. unfold Scalar.div, cpp_div. rewrite (proj2 (Z.eqb_neq b 0) Hb).
  reflexivity.
Qed.

(** * Claims *)

(** ** C1 *)

(** C1 (code_bug). On [int32_t], [add(2147483647, 1)] overflows [int] in
    the scalar backend, which is undefined behaviour, while the MMX, SSE
    and AVX backends wrap to [-2147483648]; on [uint16_t],
    [mul(65535, 65535)] overflows the [int] both operands are promoted to,
    while the SSE backend returns 1. The AVX [sub] never compiles for an
    integer type. *)
Theorem vector_tiers_vs_scalar_at_overflow :
  Scalar.add int32_t 2147483647 1 = Undef /\
  MMX.add int32_t 2147483647 1 = Ok (-2147483648) /\
  SSE.add int32_t 2147483647 1 = Ok (-2147483648) /\
  AVX.add int32_t 2147483647 1 = Ok (-2147483648) /\
  Scalar.mul uint16_t 65535 65535 = Undef /\
  SSE.mul uint16_t 65535 65535 = Ok 1 /\
  Scalar.sub int32_t 5 1 = Ok 4 /\
  AVX.sub int32_t 5 1 = Rejected.
Proof. vm_compute. repeat split. Qed.

(** ** C2 *)

(** C2 (code_bug). The scalar backend gives the spec's examples
    ([add(250, 10) == 4] on [uint8_t], [add(127, 1) == -128] on [int8_t],
    [mul(200, 200) == 64] on [uint8_t]), but [a + b], [a - b] and [a * b]
    overflow a signed [int] or [long long] without wrapping: [add] on
    [int32_t] at [(2147483647, 1)], [sub] on [int64_t] at
    [(-2^63, 1)] and [mul] on [uint16_t] at [(65535, 65535)] are
    undefined behaviour. *)
Theorem scalar_backend_overflow_is_undefined :
  Scalar.add uint8_t 250 10 = Ok 4 /\
  Scalar.add int8_t 127 1 = Ok (-128) /\
  Scalar.mul uint8_t 200 200 = Ok 64 /\
  Scalar.add int32_t 2147483647 1 = Undef /\
  Scalar.sub int64_t (- 2 ^ 63) 1 = Undef /\
  Scalar.mul uint16_t 65535 65535 = Undef.
Proof. vm_compute. repeat split. Qed.

(** ** C3 *)

(** C3 (counterexample). A non-zero divisor does not always give the
    truncated quotient: on [int32_t], [div(-2147483648, -1)] is undefined
    behaviour; on [int8_t], [div(-128, -1)] is [-128], not [128]. *)
Lemma div_min_by_minus_one :
  Scalar.div int32_t (-2147483648) (-1) <> Ok (Z.quot (-2147483648) (-1)) /\
  Scalar.div int8_t (-128) (-1) <> Ok (Z.quot (-128) (-1)).
Proof. vm_compute. split; discriminate. Qed.

(** C3 (amended). In every tier, for values [a], [b] of a width of 1, 2,
    4 or 8 bytes: [div(a, 0)] is undefined behaviour (the fatal trap);
    for [b <> 0], [div(a, b)] is the quotient truncated toward zero
    whenever the width can hold it; the only pair where it cannot is
    [a = min_value t], [b = -1] on a signed width, where [div] wraps to
    [min_value t] on the 1- and 2-byte widths and is undefined behaviour
    on the 4- and 8-byte widths. *)
Theorem div_truncates_toward_zero bk t a b :
  valid_size (ity_size t) -> in_range t a = true -> in_range t b = true ->
  run bk ODiv t a 0 = Undef /\
  (b <> 0 -> in_range t (Z.quot a b) = true -> run bk ODiv t a b = Ok (Z.quot a b)) /\
  (b <> 0 -> in_range t (Z.quot a b) = false ->
     ity_signed t = true /\ a = min_value t /\ b = -1 /\
     run bk ODiv t a b = (if ity_size t <? 4 then Ok (min_value t) else Undef)).
Proof.
  intros Hv Ha Hb. rewrite !div_same_in_every_tier.
  assert (H1 : 1 <= ity_size t) by (destruct Hv as [H|[H|[H|H]]]; lia).
  split; [reflexivity|]. split.
  - intros Hb0 Hq. rewrite div_nonzero by exact Hb0.
    rewrite cpp_binop_fits; [|exact H1|apply in_range_promote; assumption].
    f_equal. apply conv_in_range; assumption.
  - intros Hb0 Hq.
    destruct (quot_out_of_range t a b Hv Ha Hb Hb0 Hq) as (S & -> & ->).
    repeat split; [exact S|].
    destruct t as [sz sg]; cbn [ity_signed ity_size] in *; subst sg.
    destruct Hv as [-> | [-> | [-> | ->]]]; reflexivity.
Qed.

Example div_7_2 : Scalar.div int32_t 7 2 = Ok 3.
Proof. reflexivity. Qed.

Example div_minus_7_2 : Scalar.div int32_t (-7) 2 = Ok (-3).
Proof. reflexivity. Qed.

Lemma div_truncates_toward_zero_witness :
  run BSSE ODiv int32_t (-7) 0 = Undef /\ run BSSE ODiv int32_t (-7) 2 = Ok (-3).
Proof.
  destruct (div_truncates_toward_zero BSSE int32_t (-7) 2
              ltac:(unfold valid_size; cbn; lia) eq_refl eq_refl) as [H0 [H1 _]].
  split; [exact H0 | exact (H1 ltac:(discriminate) eq_refl)].
Defined.

(** ** C4 *)

(** C4. In every build where [techn_type] declares [SSE] and [AVX] and
    has no duplicate enumerator, [detected_techniq_used<TINT>()] is
    [Scalar] for [sizeof(TINT) <= 4], [SSE] for [4 < sizeof(TINT) <= 8]
    and [AVX] above, and never the sentinel [internal]. *)
Theorem detected_techniq_by_size c size :
  has_SSE2 c = true -> has_AVX2 c = true -> enum_ok c = true ->
  enumerator c "Scalar"%string = Some 0 /\ enumerator c "SSE"%string = Some 2 /\
  enumerator c "AVX"%string = Some 4 /\ enumerator c "internal"%string = Some 255 /\
  detected_techniq_used c size
    = Ok (if size <=? 4 then 0 else if size <=? 8 then 2 else 4) /\
  (forall v, detected_techniq_used c size = Ok v -> v <> 255).
Proof.
  intros Hs Ha He.
  assert (D : detected_techniq_used c size
              = Ok (if size <=? 4 then 0 else if size <=? 8 then 2 else 4)).
  { destruct c as [[] [] [] [] [] []]; cbn in Hs, Ha, He; try discriminate;
      reflexivity. }
  split; [|split; [|split; [|split; [|split]]]].
  1-4: destruct c as [[] [] [] [] [] []]; cbn in Hs, Ha, He; try discriminate;
       reflexivity.
  - exact D.
  - intros v Hv. rewrite D in Hv. injection Hv as <-.
    destruct (size <=? 4); [|destruct (size <=? 8)]; discriminate.
Qed.

Lemma detected_techniq_by_size_witness :
  detected_techniq_used x86_avx2 16 = Ok 4.
Proof.
  destruct (detected_techniq_by_size x86_avx2 16 eq_refl eq_refl eq_refl)
    as (_ & _ & _ & _ & D & _).
  exact D.
Defined.

(** ** C5 *)

(** The resolution rule as the spec states it: [Scalar] and [internal]
    resolve to the scalar backend; a technique whose capability macro is
    defined and which has a backend resolves to it (the source's
    [AVX512] specialization names [technique_backend_avx]); every other
    value, the GPU ones included, resolves to the scalar backend. *)
Definition compiled_backend (c : config) (tech : Z) : option backend :=
  if has_MMX c && (tech =? 1) then Some BMMX
  else if has_SSE2 c && (tech =? 2) then Some BSSE
  else if has_AVX2 c && (tech =? 4) then Some BAVX
  else if has_AVX512 c && (tech =? 8) then Some BAVX
  else None.

Definition resolution_spec (c : config) (tech : Z) : backend :=
  if (tech =? 0) || (tech =? 255) then BScalar
  else match compiled_backend c tech with
       | Some bk => bk
       | None => BScalar
       end.

Ltac split_eqb :=
  repeat match goal with
  | |- context [Z.eqb ?x ?y] => destruct (Z.eqb_spec x y); subst
  end.

Ltac all_configs c :=
  destruct c as [[] [] [] [] [] []].

(** A matching explicit specialization names [Scalar] with the scalar
    backend or [SSE] with the SSE backend. *)
Lemma explicit_match_cases c t tech u n bk :
  find (fun '(u, n, _) => ity_eqb t u && names_tech c n tech) explicit_specs
    = Some (u, n, bk) ->
  ((n = "Scalar"%string /\ bk = BScalar) \/ (n = "SSE"%string /\ bk = BSSE)) /\
  names_tech c n tech = true.
Proof.
  intros F. apply find_some in F as [Hin Hp].
  apply andb_prop in Hp as [_ Hp]. split; [|exact Hp].
  cbn in Hin.
  repeat destruct Hin as [Hin|Hin]; try contradiction;
    injection Hin; intros; subst; auto.
Qed.

(** C5. In every build where the specializations compile ([__SSE2__]
    defined, no duplicate enumerator), [technique_selector<TINT, TTECH>]
    yields, without error, the backend of [resolution_spec] for every
    type and technique value; the GPU values [OpenCL] (200) and [Vulkan]
    (201) yield the scalar backend. *)
Theorem technique_selector_resolution c t tech :
  has_SSE2 c = true -> enum_ok c = true ->
  technique_selector c t tech = Ok (resolution_spec c tech) /\
  (tech = 200 \/ tech = 201 -> technique_selector c t tech = Ok BScalar).
Proof.
  intros Hs He.
  assert (R : technique_selector c t tech = Ok (resolution_spec c tech)).
  { assert (Hok : selector_ok c = true)
      by (all_configs c; cbn in Hs, He; try discriminate; reflexivity).
    unfold technique_selector. rewrite Hok. cbn [negb].
    destruct (find (fun '(u, n, _) => ity_eqb t u && names_tech c n tech)
                explicit_specs) as [[[u n] bk]|] eqn:F.
    - apply explicit_match_cases in F as [[[-> ->] | [-> ->]] Hn];
        unfold names_tech, resolution_spec, compiled_backend in *;
        all_configs c; cbn in Hs, He; cbn -[Z.eqb] in Hn; try discriminate;
        apply Z.eqb_eq in Hn; subst; reflexivity.
    - unfold resolution_spec, compiled_backend, names_tech.
      all_configs c; cbn in Hs, He; try discriminate;
        cbn -[Z.eqb]; split_eqb; try reflexivity; lia. }
  split; [exact R|].
  intros G. rewrite R. unfold resolution_spec, compiled_backend.
  destruct G as [-> | ->]; all_configs c; reflexivity.
Qed.

Lemma technique_selector_resolution_witness :
  technique_selector (mk_config true true true true false true) int32_t 200 = Ok BScalar.
Proof.
  exact (proj2 (technique_selector_resolution
                  (mk_config true true true true false true) int32_t 200
                  eq_refl eq_refl) (or_introl eq_refl)).
Defined.

(** Every integer type represents 0 and 1. *)
Lemma in_range_0_1 t z : 1 <= ity_size t -> 0 <= z <= 1 -> in_range t z = true.
Proof.
  intros H1 Hz. apply in_range_iff. unfold min_value, max_value, bits.
  assert (2 ^ 1 <= 2 ^ (8 * ity_size t - 1)) by (apply Z.pow_le_mono_r; lia).
  assert (2 ^ (8 * ity_size t - 1) < 2 ^ (8 * ity_size t))
    by (apply Z.pow_lt_mono_r; lia).
  destruct (ity_signed t); cbn in *; lia.
Qed.

(** ** C6 *)

Local Open Scope string_scope.

(** The name each technique gets when every [case] label is declared. *)
Definition technt2string_expected (c : config) (tech : Z) : string :=
  if has_MMX c && Z.eqb tech 1 then "MMX"
  else if has_SSE2 c && Z.eqb tech 2 then "SSE"
  else if has_AVX2 c && Z.eqb tech 4 then "AVX"
  else if has_AVX512 c && Z.eqb tech 8 then "AVX512"
  else if has_GPU c && Z.eqb tech 200 then "OpenCL"
  else if has_GPU c && Z.eqb tech 201 then "Vulkan"
  else "Scalar".

(** Without [__NEON__], [technt2string] names the declared techniques and
    renders every other value as ["Scalar"]. *)
Lemma technt2string_without_neon c tech :
  has_NEON c = false -> technt2string c tech = Ok (technt2string_expected c tech).
Proof.
  intros Hn. unfold technt2string, technt2string_expected.
  all_configs c; cbn in Hn; try discriminate;
    cbn -[Z.eqb]; split_eqb; try reflexivity; lia.
Qed.

Lemma technt2string_without_neon_witness :
  technt2string x86_avx2 16 = Ok "Scalar" /\ technt2string x86_avx2 4 = Ok "AVX".
Proof.
  split; rewrite (technt2string_without_neon x86_avx2); reflexivity.
Defined.

(** C6 (code_bug). With [__NEON__] defined, [techn_type] declares
    [AVX512 = 16] where [NEON] is meant, so the label
    [case techn_t::NEON] of [technt2string] names no enumerator and the
    function is rejected: it never returns ["NEON"]. *)
Theorem technt2string_neon_build_rejected :
  enumerator x86_avx2_neon "NEON" = None /\
  enumerator x86_avx2_neon "AVX512" = Some 16 /\
  (forall tech, technt2string x86_avx2_neon tech = Rejected).
Proof. repeat split. Qed.

Local Close Scope string_scope.

(** ** C7 *)

(** With the scalar, MMX or SSE backend, on a width of 1, 2, 4 or 8
    bytes, [x++; x--;] restores a value strictly inside the range. *)
Lemma inc_then_dec_restores c x bk :
  backend_type c x = Ok bk -> bk <> BAVX ->
  valid_size (ity_size (an_type x)) ->
  min_value (an_type x) < m_tiValue x < max_value (an_type x) ->
  inc_then_dec c x = Ok x.
Proof.
  destruct x as [t tech v]; cbn [an_type m_tiValue].
  intros Hb Hx Hv Hr.
  assert (H1 : 1 <= ity_size t) by (destruct Hv as [H|[H|[H|H]]]; lia).
  assert (One : conv t 1 = 1)
    by (apply conv_in_range, in_range_0_1; lia).
  assert (Rv : in_range t v = true) by (apply in_range_iff; lia).
  assert (Rs : in_range t (v + 1) = true) by (apply in_range_iff; lia).
  assert (Add : run BScalar OAdd t v 1 = Ok (v + 1)).
  { cbn [run]. unfold Scalar.add, cpp_add.
    rewrite cpp_binop_fits; [|exact H1|apply in_range_promote; assumption].
    rewrite conv_in_range by assumption. reflexivity. }
  assert (Sub : run BScalar OSub t (v + 1) 1 = Ok v).
  { cbn [run]. unfold Scalar.sub, cpp_sub.
    rewrite cpp_binop_fits; [|exact H1|apply in_range_promote; [exact Hv|];
                               replace (v + 1 - 1) with v by ring; exact Rv].
    replace (v + 1 - 1) with v by ring.
    rewrite conv_in_range by assumption. reflexivity. }
  assert (NS : (bk, OSub) <> (BAVX, OSub)) by congruence.
  assert (NA : (bk, OAdd) <> (BAVX, OSub)) by congruence.
  unfold inc_then_dec, post_inc. rewrite Hb. cbn [res_bind an_type m_tiValue].
  rewrite One, (vector_matches_scalar bk OAdd t v 1 (v + 1) Hv NA Add).
  cbn [res_bind fst]. unfold post_dec, with_value. cbn [an_type an_tech m_tiValue].
  unfold backend_type in Hb |- *. cbn [an_type an_tech] in *. rewrite Hb.
  cbn [res_bind]. rewrite One, (vector_matches_scalar bk OSub t (v + 1) 1 v Hv NS Sub).
  reflexivity.
Qed.

Lemma inc_then_dec_restores_witness :
  inc_then_dec x86_avx2 (mk_an int32_t 0 5) = Ok (mk_an int32_t 0 5).
Proof.
  apply (inc_then_dec_restores x86_avx2 (mk_an int32_t 0 5) BScalar);
    [reflexivity | discriminate | unfold valid_size; cbn; lia | vm_compute; split; reflexivity].
Defined.

(** C7 (code_bug). On [__int128] bound to [SSE], [x++; x--;] from 5 ends
    at 0, since the SSE [add] and [sub] return 0 for a width with no
    branch (see C9); on [int32_t] bound to [AVX], [x--] does not compile
    (see [AVX_sub_rejected]). *)
Theorem inc_then_dec_fails_on_sse_int128_and_avx :
  inc_then_dec x86_avx2 (mk_an int128_t 2 5) = Ok (mk_an int128_t 2 0) /\
  inc_then_dec x86_avx2 (mk_an int32_t 4 5) = Rejected.
Proof. split; reflexivity. Qed.

(** ** C8 *)

(** C8 (code_bug). [set] is declared [const] and assigns [m_tiValue],
    which is not [mutable]: every call [x.set(v)] is rejected. *)
Theorem set_is_rejected x v : set x v = Rejected.
Proof. reflexivity. Qed.

(** [get_techniq] reads only the template argument. *)
Lemma get_techniq_with_value x v : get_techniq (with_value x v) = get_techniq x.
Proof. reflexivity. Qed.

(** ** C9 *)

(** C9. For an integer type whose size is not 1, 2, 4 or 8 bytes, the
    SSE [add] and [sub] and the AVX [add] return 0 whatever the operands,
    while the MMX [add] computes [a + b] like the scalar backend. *)
Theorem odd_width_vector_add_is_zero t a b :
  1 <= ity_size t -> ~ valid_size (ity_size t) ->
  SSE.add t a b = Ok 0 /\ SSE.sub t a b = Ok 0 /\ AVX.add t a b = Ok 0 /\
  MMX.add t a b = Scalar.add t a b.
Proof.
  intros H1 Hv. unfold valid_size in Hv.
  assert (Zero : conv t 0 = 0)
    by (apply conv_in_range, in_range_0_1; lia).
  unfold SSE.add, SSE.sub, AVX.add, MMX.add.
  rewrite (proj2 (Z.eqb_neq _ 1)), (proj2 (Z.eqb_neq _ 2)),
    (proj2 (Z.eqb_neq _ 4)), (proj2 (Z.eqb_neq _ 8)) by lia.
  rewrite Zero. repeat split.
Qed.

Lemma odd_width_vector_add_is_zero_witness :
  SSE.add int128_t 3 4 = Ok 0 /\ MMX.add int128_t 3 4 = Ok 7.
Proof.
  destruct (odd_width_vector_add_is_zero int128_t 3 4
              ltac:(cbn; lia) ltac:(unfold valid_size; cbn; lia))
    as (A & _ & _ & M).
  split; [exact A | rewrite M; reflexivity].
Defined.

(** ** C10 *)

(** C10. [x++] and [x--] store the backend's [add(v, 1)] and
    [sub(v, 1)] and return a copy of the updated object. *)
Theorem postfix_returns_updated c x bk r1 r2 :
  backend_type c x = Ok bk ->
  (run bk OAdd (an_type x) (m_tiValue x) (conv (an_type x) 1) = Ok r1 ->
   post_inc c x = Ok (with_value x r1, with_value x r1)) /\
  (run bk OSub (an_type x) (m_tiValue x) (conv (an_type x) 1) = Ok r2 ->
   post_dec c x = Ok (with_value x r2, with_value x r2)).
Proof.
  intros Hb. unfold post_inc, post_dec. rewrite Hb. cbn [res_bind].
  split; intros H; rewrite H; reflexivity.
Qed.

Lemma postfix_returns_updated_witness :
  post_inc x86_avx2 (mk_an uint8_t 0 7) = Ok (mk_an uint8_t 0 8, mk_an uint8_t 0 8) /\
  post_dec x86_avx2 (mk_an uint8_t 0 7) = Ok (mk_an uint8_t 0 6, mk_an uint8_t 0 6).
Proof.
  destruct (postfix_returns_updated x86_avx2 (mk_an uint8_t 0 7) BScalar 8 6 eq_refl)
    as [I D].
  split; [exact (I eq_refl) | exact (D eq_refl)].
Defined.

(** * Further properties *)

(** ** Helpers *)

Lemma size_cases s :
  valid_size s \/ (s <> 1 /\ s <> 2 /\ s <> 4 /\ s <> 8).
Proof. unfold valid_size; lia. Qed.

Lemma cpp_binop_comm f t a b :
  (forall x y, f x y = f y x) -> cpp_binop f t a b = cpp_binop f t b a.
Proof. intros C. unfold cpp_binop. rewrite C. reflexivity. Qed.

Lemma run_add_comm bk t a b : run bk OAdd t a b = run bk OAdd t b a.
Proof.
  destruct (size_cases (ity_size t)) as [Hv | (H1 & H2 & H4 & H8)].
  - destruct bk; cbn [run].
    + apply cpp_binop_comm, Z.add_comm.
    + rewrite !MMX_add_wrap, Z.add_comm by exact Hv. reflexivity.
    + rewrite !SSE_add_wrap, Z.add_comm by exact Hv. reflexivity.
    + rewrite !AVX_add_wrap, Z.add_comm by exact Hv. reflexivity.
  - destruct bk; cbn [run]; unfold Scalar.add, MMX.add, SSE.add, AVX.add;
      rewrite ?(proj2 (Z.eqb_neq _ 1) H1), ?(proj2 (Z.eqb_neq _ 2) H2),
        ?(proj2 (Z.eqb_neq _ 4) H4), ?(proj2 (Z.eqb_neq _ 8) H8);
      try reflexivity; apply cpp_binop_comm, Z.add_comm.
Qed.

Lemma run_mul_comm bk t a b : run bk OMul t a b = run bk OMul t b a.
Proof.
  assert (C : cpp_mul t a b = cpp_mul t b a) by apply cpp_binop_comm, Z.mul_comm.
  destruct bk; cbn [run].
  - exact C.
  - destruct (Z.eq_dec (ity_size t) 1) as [H|H];
      [rewrite !MMX_mul_narrow, Z.mul_comm by lia; reflexivity|].
    destruct (Z.eq_dec (ity_size t) 2) as [H'|H'];
      [rewrite !MMX_mul_narrow, Z.mul_comm by lia; reflexivity|].
    rewrite !MMX_mul_wide by assumption. exact C.
  - destruct (Z.eq_dec (ity_size t) 1) as [H|H];
      [rewrite !SSE_mul_narrow, Z.mul_comm by lia; reflexivity|].
    destruct (Z.eq_dec (ity_size t) 2) as [H'|H'];
      [rewrite !SSE_mul_narrow, Z.mul_comm by lia; reflexivity|].
    destruct (Z.eq_dec (ity_size t) 4) as [H''|H''];
      [rewrite !SSE_mul_narrow, Z.mul_comm by lia; reflexivity|].
    rewrite !SSE_mul_wide by assumption. exact C.
  - destruct (size_cases (ity_size t)) as [Hv | (H1 & H2 & H4 & H8)].
    + rewrite !AVX_mul_wrap, Z.mul_comm by exact Hv. reflexivity.
    + unfold AVX.mul.
      rewrite (proj2 (Z.eqb_neq _ 1) H1), (proj2 (Z.eqb_neq _ 2) H2),
        (proj2 (Z.eqb_neq _ 4) H4), (proj2 (Z.eqb_neq _ 8) H8).
      reflexivity.
Qed.

(** [cpp_binop] is undefined exactly when the promoted type is signed and
    the exact result does not fit it. *)
Lemma cpp_binop_cases f t a b :
  1 <= ity_size t ->
  cpp_binop f t a b
  = if ity_signed (promote t) && negb (in_range (promote t) (f a b)) then Undef
    else Ok (conv t (f a b)).
Proof.
  intros Hs. unfold cpp_binop.
  destruct (ity_signed (promote t)) eqn:S; cbn [andb negb].
  - destruct (in_range (promote t) (f a b)); reflexivity.
  - f_equal. unfold promote in *.
    destruct (ity_size t <? ity_size int_t); [discriminate|].
    apply conv_eqm, eqm_to_bits. unfold bits; lia.
Qed.

(** The value after the largest one wraps to the smallest, and back. *)
Lemma conv_max_succ t : 1 <= ity_size t -> conv t (max_value t + 1) = min_value t.
Proof.
  intros Hs. unfold conv, sext, to_bits, min_value, max_value.
  assert (Hb : 8 <= bits t) by (unfold bits; lia).
  pose proof (pow2_split (bits t) ltac:(lia)) as E.
  assert (0 < 2 ^ (bits t - 1)) by (apply Z.pow_pos_nonneg; lia).
  destruct (ity_signed t).
  - replace (2 ^ (bits t - 1) - 1 + 1) with (2 ^ (bits t - 1)) by ring.
    rewrite Z.mod_small by lia.
    destruct (Z.ltb_spec (2 ^ (bits t - 1)) (2 ^ (bits t - 1))); lia.
  - replace (2 ^ bits t - 1 + 1) with (2 ^ bits t) by ring.
    apply Z.mod_same; lia.
Qed.

Lemma conv_min_pred t : 1 <= ity_size t -> conv t (min_value t - 1) = max_value t.
Proof.
  intros Hs. unfold conv, sext, to_bits, min_value, max_value.
  assert (Hb : 8 <= bits t) by (unfold bits; lia).
  pose proof (pow2_split (bits t) ltac:(lia)) as E.
  assert (0 < 2 ^ (bits t - 1)) by (apply Z.pow_pos_nonneg; lia).
  destruct (ity_signed t).
  - rewrite <- (Z.mod_unique_pos (- 2 ^ (bits t - 1) - 1) (2 ^ bits t) (-1)
                 (2 ^ (bits t - 1) - 1)) by lia.
    destruct (Z.ltb_spec (2 ^ (bits t - 1) - 1) (2 ^ (bits t - 1))); lia.
  - rewrite <- (Z.mod_unique_pos (0 - 1) (2 ^ bits t) (-1) (2 ^ bits t - 1)) by lia.
    reflexivity.
Qed.

Lemma max_succ_out t : in_range t (max_value t + 1) = false.
Proof.
  unfold in_range. destruct (Z.leb_spec (max_value t + 1) (max_value t)); [lia|].
  apply andb_false_r.
Qed.

Lemma min_pred_out t : in_range t (min_value t - 1) = false.
Proof.
  unfold in_range. destruct (Z.leb_spec (min_value t) (min_value t - 1)); [lia|].
  reflexivity.
Qed.

Lemma conv_one t : 1 <= ity_size t -> conv t 1 = 1.
Proof. intros H. apply conv_in_range, in_range_0_1; lia. Qed.

(** Bounds of the types of at most two bytes. *)
Lemma narrow_bounds t z :
  ity_size t = 1 \/ ity_size t = 2 -> in_range t z = true -> -32768 <= z <= 65535.
Proof.
  intros Hs Hz. apply in_range_iff in Hz. unfold min_value, max_value, bits in Hz.
  destruct Hs as [E|E]; rewrite E in Hz; destruct (ity_signed t); lia.
Qed.

Lemma promote_narrow t : ity_size t = 1 \/ ity_size t = 2 -> promote t = int_t.
Proof.
  intros [E|E]; unfold promote; rewrite E; reflexivity.
Qed.

Lemma promote_wide t : 4 <= ity_size t -> promote t = t.
Proof.
  intros E. unfold promote. cbn [ity_size int_t int32_t].
  destruct (Z.ltb_spec (ity_size t) 4); [lia | reflexivity].
Qed.

Lemma in_range_int z : -2147483648 <= z <= 2147483647 -> in_range int_t z = true.
Proof. intros H. apply in_range_iff. cbn. lia. Qed.

(** The C4 and C5 results, for use by other proofs. *)
Lemma detected_by_size c size :
  has_SSE2 c = true -> has_AVX2 c = true -> enum_ok c = true ->
  detected_techniq_used c size
    = Ok (if size <=? 4 then 0 else if size <=? 8 then 2 else 4).
Proof.
  intros Hs Ha He.
  destruct c as [[] [] [] [] [] []]; cbn in Hs, Ha, He; try discriminate;
    reflexivity.
Qed.

Lemma selector_by_spec c t tech :
  has_SSE2 c = true -> enum_ok c = true ->
  technique_selector c t tech = Ok (resolution_spec c tech).
Proof.
  intros Hs He.
  assert (Hok : selector_ok c = true)
    by (all_configs c; cbn in Hs, He; try discriminate; reflexivity).
  unfold technique_selector. rewrite Hok. cbn [negb].
  destruct (find (fun '(u, n, _) => ity_eqb t u && names_tech c n tech)
              explicit_specs) as [[[u n] bk]|] eqn:F.
  - apply explicit_match_cases in F as [[[-> ->] | [-> ->]] Hn];
      unfold names_tech, resolution_spec, compiled_backend in *;
      all_configs c; cbn in Hs, He; cbn -[Z.eqb] in Hn; try discriminate;
      apply Z.eqb_eq in Hn; subst; reflexivity.
  - unfold resolution_spec, compiled_backend, names_tech.
    all_configs c; cbn in Hs, He; try discriminate;
      cbn -[Z.eqb]; split_eqb; try reflexivity; lia.
Qed.

(** ** Modular arithmetic in the vector backends *)





(** ** Where the scalar backend is defined *)



(** For operands of the bound type, the scalar [add] and [sub] are never
    undefined on 1- and 2-byte types, nor [mul] on 1-byte types and
    [int16_t]; on unsigned types of 4 bytes or more every one of them
    wraps; on [uint16_t] the [mul] is undefined exactly when the product
    exceeds [INT_MAX]. *)
Theorem scalar_defined_when_promotion_fits t a b :
  in_range t a = true -> in_range t b = true ->
  (ity_size t = 1 \/ ity_size t = 2 ->
     Scalar.add t a b = Ok (conv t (a + b)) /\ Scalar.sub t a b = Ok (conv t (a - b))) /\
  (ity_size t = 1 \/ (ity_size t = 2 /\ ity_signed t = true) ->
     Scalar.mul t a b = Ok (conv t (a * b))) /\
  (t = uint16_t ->
     Scalar.mul t a b = if a * b <=? 2147483647 then Ok (conv t (a * b)) else Undef) /\
  (ity_signed t = false -> 4 <= ity_size t ->
     Scalar.add t a b = Ok (conv t (a + b)) /\ Scalar.sub t a b = Ok (conv t (a - b)) /\
     Scalar.mul t a b = Ok (conv t (a * b))).
Proof.
  intros Ha Hb.
  unfold Scalar.add, Scalar.sub, Scalar.mul, cpp_add, cpp_sub, cpp_mul.
  split; [|split; [|split]].
  - intros Hn. pose proof (narrow_bounds t a Hn Ha). pose proof (narrow_bounds t b Hn Hb).
    assert (H1 : 1 <= ity_size t) by lia.
    split; apply cpp_binop_fits; try exact H1;
      rewrite promote_narrow by exact Hn; apply in_range_int; lia.
  - intros Hn. assert (H1 : 1 <= ity_size t) by lia.
    apply cpp_binop_fits; [exact H1|].
    rewrite promote_narrow by lia. apply in_range_int.
    apply in_range_iff in Ha, Hb. unfold min_value, max_value, bits in Ha, Hb.
    destruct Hn as [E | [E S]]; rewrite E in Ha, Hb; [destruct (ity_signed t)|rewrite S in Ha, Hb];
      nia.
  - intros ->. rewrite cpp_binop_cases by (cbn; lia).
    apply in_range_iff in Ha, Hb. cbn in Ha, Hb.
    unfold in_range; cbn.
    destruct (Z.leb_spec (a * b) 2147483647); destruct (Z.leb_spec (-2147483648) (a * b));
      cbn; try reflexivity; nia.
  - intros S W. repeat split; apply cpp_binop_unsigned_wide; assumption.
Qed.

Lemma scalar_defined_when_promotion_fits_witness :
  Scalar.add uint8_t 250 10 = Ok 4 /\ Scalar.mul uint16_t 65535 65535 = Undef.
Proof.
  destruct (scalar_defined_when_promotion_fits uint16_t 65535 65535
              ltac:(reflexivity) ltac:(reflexivity)) as (_ & _ & M & _).
  destruct (scalar_defined_when_promotion_fits uint8_t 250 10
              ltac:(reflexivity) ltac:(reflexivity)) as (A & _).
  split; [exact (proj1 (A ltac:(left; reflexivity))) | rewrite (M eq_refl); reflexivity].
Defined.

(** ** The operators of adaptive_number *)

(** For two objects of the same [adaptive_number] type, [x + y] and
    [y + x] are the same object, as are [x * y] and [y * x], in every
    tier; [x += y] leaves [x] equal to [y + x]. *)
Theorem operator_plus_mul_commute c x y :
  an_type x = an_type y -> an_tech x = an_tech y ->
  operator_plus c x y = operator_plus c y x /\
  operator_mul c x y = operator_mul c y x /\
  compound_assign c OAdd x y = operator_plus c y x.
Proof.
  destruct x as [t tech v], y as [u tech' w]; cbn [an_type an_tech].
  intros <- <-.
  unfold operator_plus, operator_mul, binary_op, compound_assign, backend_type,
    with_value; cbn [an_type an_tech m_tiValue].
  destruct (technique_selector c t tech) as [bk| |]; cbn [res_bind];
    [|repeat split..].
  rewrite (run_add_comm bk t v w), (run_mul_comm bk t v w). repeat split.
Qed.

Lemma operator_plus_mul_commute_witness :
  operator_plus x86_avx2 (mk_an uint64_t 2 7) (mk_an uint64_t 2 9)
  = operator_plus x86_avx2 (mk_an uint64_t 2 9) (mk_an uint64_t 2 7).
Proof.
  exact (proj1 (operator_plus_mul_commute x86_avx2 (mk_an uint64_t 2 7)
                  (mk_an uint64_t 2 9) eq_refl eq_refl)).
Defined.

(** The six comparison operators agree with each other: [!=], [<=] and
    [>=] are the negations of [==], [>] and [<], [x > y] is [y < x], [==]
    holds exactly when the values are equal, and exactly one of [<], [==]
    and [>] holds. *)
Theorem comparison_operators_consistent x y :
  operator_ne x y = negb (operator_eq x y) /\
  operator_le x y = negb (operator_gt x y) /\
  operator_ge x y = negb (operator_lt x y) /\
  operator_gt x y = operator_lt y x /\
  (operator_eq x y = true <-> value x = value y) /\
  Z.b2z (operator_lt x y) + Z.b2z (operator_eq x y) + Z.b2z (operator_gt x y) = 1.
Proof.
  unfold operator_ne, operator_eq, operator_le, operator_gt, operator_ge,
    operator_lt, value.
  rewrite !Z.gtb_ltb, !Z.geb_leb.
  set (a := m_tiValue x); set (b := m_tiValue y).
  split; [reflexivity|].
  split; [destruct (Z.leb_spec a b), (Z.ltb_spec b a); reflexivity || lia|].
  split; [destruct (Z.leb_spec b a), (Z.ltb_spec a b); reflexivity || lia|].
  split; [reflexivity|].
  split; [apply Z.eqb_eq|].
  destruct (Z.ltb_spec a b), (Z.eqb_spec a b), (Z.ltb_spec b a); cbn; lia.
Qed.

(** ** The default technique *)

(** In every build where the headers compile ([__SSE2__] and [__AVX2__]
    defined, no duplicate enumerator), [adaptive_number<TINT>] with its
    default technique, as [int8s_t] ... [uint64s_t] and the [*ts_t]
    aliases use it, gets the scalar backend for types of at most 4 bytes,
    the SSE backend for types of at most 8 bytes and the AVX backend for
    wider ones; for those, [x - y] never compiles. *)
Theorem default_binding_by_size c t :
  has_SSE2 c = true -> has_AVX2 c = true -> enum_ok c = true ->
  default_backend c t
    = Ok (if ity_size t <=? 4 then BScalar
          else if ity_size t <=? 8 then BSSE else BAVX) /\
  (8 < ity_size t -> forall x y,
     an_type x = t -> default_techniq c t = Ok (an_tech x) ->
     operator_minus c x y = Rejected).
Proof.
  intros Hs Ha He.
  assert (D : default_backend c t
              = Ok (if ity_size t <=? 4 then BScalar
                    else if ity_size t <=? 8 then BSSE else BAVX)).
  { unfold default_backend, default_techniq.
    rewrite detected_by_size by assumption. cbn [res_bind].
    rewrite selector_by_spec by assumption.
    unfold resolution_spec, compiled_backend.
    destruct (ity_size t <=? 4); [reflexivity|].
    destruct (ity_size t <=? 8); all_configs c; cbn in Hs, Ha; try discriminate;
      reflexivity. }
  split; [exact D|].
  intros W x y Hx Ht.
  assert (B : backend_type c x = Ok BAVX).
  { unfold backend_type. rewrite Hx.
    unfold default_backend in D. rewrite Ht in D. cbn [res_bind] in D. rewrite D.
    destruct (Z.leb_spec (ity_size t) 4); [lia|].
    destruct (Z.leb_spec (ity_size t) 8); [lia|]. reflexivity. }
  unfold operator_minus, binary_op. rewrite B. reflexivity.
Qed.

Lemma default_binding_by_size_witness :
  default_backend x86_avx2 uint64_t = Ok BSSE /\
  operator_minus x86_avx2 (mk_an int128_t 4 7) (mk_an int128_t 4 2) = Rejected.
Proof.
  destruct (default_binding_by_size x86_avx2 uint64_t eq_refl eq_refl eq_refl) as [D _].
  destruct (default_binding_by_size x86_avx2 int128_t eq_refl eq_refl eq_refl) as [_ M].
  split; [exact D|].
  apply (M ltac:(cbn; lia)); reflexivity.
Defined.

(** ** Increment and decrement at the bounds of the type *)

Ltac narrow_type t :=
  let s := fresh "s" in let sg := fresh "sg" in
  destruct t as [s sg]; cbn [ity_size ity_signed] in *;
  match goal with
  | H : s = 1 \/ s = 2 |- _ => destruct H as [-> | ->]; destruct sg; reflexivity
  end.

Lemma run_inc_at_max bk t :
  valid_size (ity_size t) ->
  (bk <> BScalar \/ ity_size t <= 2 \/ ity_signed t = false) ->
  run bk OAdd t (max_value t) 1 = Ok (min_value t).
Proof.
  intros Hv Hw.
  assert (H1 : 1 <= ity_size t) by (destruct Hv as [H|[H|[H|H]]]; lia).
  destruct bk; cbn [run].
  - destruct (Z_le_gt_dec (ity_size t) 2) as [N|W].
    + assert (ity_size t = 1 \/ ity_size t = 2) by (destruct Hv as [H|[H|[H|H]]]; lia).
      narrow_type t.
    + destruct Hw as [C | [N | U]]; [congruence | lia |].
      assert (4 <= ity_size t) by (destruct Hv as [H|[H|[H|H]]]; lia).
      unfold Scalar.add, cpp_add. rewrite cpp_binop_unsigned_wide by assumption.
      rewrite conv_max_succ by exact H1. reflexivity.
  - rewrite MMX_add_wrap, conv_max_succ by assumption. reflexivity.
  - rewrite SSE_add_wrap, conv_max_succ by assumption. reflexivity.
  - rewrite AVX_add_wrap, conv_max_succ by assumption. reflexivity.
Qed.

Lemma run_dec_at_min bk t :
  valid_size (ity_size t) -> bk <> BAVX ->
  (bk <> BScalar \/ ity_size t <= 2 \/ ity_signed t = false) ->
  run bk OSub t (min_value t) 1 = Ok (max_value t).
Proof.
  intros Hv Hx Hw.
  assert (H1 : 1 <= ity_size t) by (destruct Hv as [H|[H|[H|H]]]; lia).
  destruct bk; cbn [run]; [| | | congruence].
  - destruct (Z_le_gt_dec (ity_size t) 2) as [N|W].
    + assert (ity_size t = 1 \/ ity_size t = 2) by (destruct Hv as [H|[H|[H|H]]]; lia).
      narrow_type t.
    + destruct Hw as [C | [N | U]]; [congruence | lia |].
      assert (4 <= ity_size t) by (destruct Hv as [H|[H|[H|H]]]; lia).
      unfold Scalar.sub, cpp_sub. rewrite cpp_binop_unsigned_wide by assumption.
      rewrite conv_min_pred by exact H1. reflexivity.
  - rewrite MMX_sub_wrap, conv_min_pred by assumption. reflexivity.
  - rewrite SSE_sub_wrap, conv_min_pred by assumption. reflexivity.
Qed.

(** On a type of 1, 2, 4 or 8 bytes, [x++] from the largest value gives
    the smallest one, and [x--] from the smallest value gives the largest
    one, with every backend except the scalar one on signed types of 4
    or 8 bytes (for [x--], also except the AVX one, whose [sub] does not
    compile). *)
Theorem postfix_wraps_at_bounds c x bk :
  backend_type c x = Ok bk -> valid_size (ity_size (an_type x)) ->
  (bk <> BScalar \/ ity_size (an_type x) <= 2 \/ ity_signed (an_type x) = false) ->
  (m_tiValue x = max_value (an_type x) ->
     post_inc c x = Ok (with_value x (min_value (an_type x)),
                        with_value x (min_value (an_type x)))) /\
  (bk <> BAVX -> m_tiValue x = min_value (an_type x) ->
     post_dec c x = Ok (with_value x (max_value (an_type x)),
                        with_value x (max_value (an_type x)))).
Proof.
  intros Hb Hv Hw.
  assert (H1 : 1 <= ity_size (an_type x)) by (destruct Hv as [H|[H|[H|H]]]; lia).
  split.
  - intros Hm. unfold post_inc. rewrite Hb. cbn [res_bind].
    rewrite conv_one, Hm, run_inc_at_max by assumption. reflexivity.
  - intros Hx Hm. unfold post_dec. rewrite Hb. cbn [res_bind].
    rewrite conv_one, Hm, run_dec_at_min by assumption. reflexivity.
Qed.

Lemma postfix_wraps_at_bounds_witness :
  post_inc x86_avx2 (mk_an uint64_t 2 18446744073709551615)
    = Ok (mk_an uint64_t 2 0, mk_an uint64_t 2 0) /\
  post_dec x86_avx2 (mk_an int8_t 0 (-128))
    = Ok (mk_an int8_t 0 127, mk_an int8_t 0 127).
Proof.
  split.
  - apply (proj1 (postfix_wraps_at_bounds x86_avx2 (mk_an uint64_t 2 18446744073709551615)
                    BSSE eq_refl ltac:(right; right; right; reflexivity)
                    ltac:(left; discriminate))).
    reflexivity.
  - apply (proj2 (postfix_wraps_at_bounds x86_avx2 (mk_an int8_t 0 (-128))
                    BScalar eq_refl ltac:(left; reflexivity)
                    ltac:(right; left; cbn; lia)));
      [discriminate | reflexivity].
Defined.

(** With the scalar backend on a signed type of 4 or 8 bytes, [x++] from
    the largest value and [x--] from the smallest value overflow [int] or
    the type itself: undefined behaviour. *)
Theorem scalar_postfix_undefined_at_bounds c x :
  backend_type c x = Ok BScalar -> ity_signed (an_type x) = true ->
  4 <= ity_size (an_type x) ->
  (m_tiValue x = max_value (an_type x) -> post_inc c x = Undef) /\
  (m_tiValue x = min_value (an_type x) -> post_dec c x = Undef).
Proof.
  intros Hb Sg W.
  assert (H1 : 1 <= ity_size (an_type x)) by lia.
  split; intros Hm.
  - unfold post_inc. rewrite Hb. cbn [res_bind run].
    rewrite conv_one, Hm by exact H1.
    unfold Scalar.add, cpp_add, cpp_binop. rewrite promote_wide, Sg, max_succ_out by exact W.
    reflexivity.
  - unfold post_dec. rewrite Hb. cbn [res_bind run].
    rewrite conv_one, Hm by exact H1.
    unfold Scalar.sub, cpp_sub, cpp_binop. rewrite promote_wide, Sg, min_pred_out by exact W.
    reflexivity.
Qed.

Lemma scalar_postfix_undefined_at_bounds_witness :
  post_inc x86_avx2 (mk_an int32_t 0 2147483647) = Undef.
Proof.
  apply (proj1 (scalar_postfix_undefined_at_bounds x86_avx2 (mk_an int32_t 0 2147483647)
                  eq_refl eq_refl ltac:(cbn; lia))).
  reflexivity.
Defined.
